(** * The OCR consolidation endpoint ([ocrApplication/assets/server.py])

    A shallow embedding of the Flask view [process_ocr] and of the part of
    the Python run time it relies on: the values [request.get_json()] can
    produce, the operators [in], [x[k]] and [isinstance(x, list)], the
    text [str()] gives for such values, exceptions with [try]/[except],
    and the one outbound call, [ollama.chat]. *)

From Stdlib Require Import List String Ascii Bool ZArith NArith Lia DecimalString.
Import ListNotations.
Open Scope list_scope.
Set Warnings "-register-all".

(** ** Python strings *)

(** A Python [str] is a sequence of Unicode code points. *)
Definition pystr := list N.

(** The [str] written by an ASCII literal of the source. *)
Definition lit (s : string) : pystr := map N_of_ascii (list_ascii_of_string s).
Arguments lit s%_string.

Fixpoint pystr_eqb (s t : pystr) : bool :=
  match s, t with
  | [], [] => true
  | a :: s', b :: t' => N.eqb a b && pystr_eqb s' t'
  | _, _ => false
  end.

Fixpoint starts_with (p s : pystr) : bool :=
  match p, s with
  | [], _ => true
  | a :: p', b :: s' => N.eqb a b && starts_with p' s'
  | _ :: _, [] => false
  end.

(** [sub in s] for two strings: [sub] occurs in [s] as a substring. *)
Fixpoint str_contains (sub s : pystr) : bool :=
  starts_with sub s ||
  match s with
  | [] => false
  | _ :: s' => str_contains sub s'
  end.

(** [sep.join(parts)] *)
Fixpoint join (sep : pystr) (parts : list pystr) : pystr :=
  match parts with
  | [] => []
  | [p] => p
  | p :: rest => p ++ sep ++ join sep rest
  end.

(** ** Python values

    What [json.loads] builds, and so what [request.get_json()] returns:
    [None], [bool], [int], [float], [str], [list] and [dict] with [str]
    keys.  A [dict] keeps its items in insertion order, which is the order
    [str()] prints them in, so it is an association list; lookup takes the
    first item with the key.  A [float] is carried as the text [repr]
    prints for it (that text identifies the float; the handler does no
    arithmetic). *)
Inductive pyval : Type :=
| PNone
| PBool (b : bool)
| PInt (z : Z)
| PFloat (r : pystr)
| PStr (s : pystr)
| PList (xs : list pyval)
| PDict (kvs : list (pystr * pyval)).

Fixpoint dict_get (kvs : list (pystr * pyval)) (key : pystr) : option pyval :=
  match kvs with
  | [] => None
  | (k, v) :: rest => if pystr_eqb key k then Some v else dict_get rest key
  end.

Fixpoint dict_has_key (kvs : list (pystr * pyval)) (key : pystr) : bool :=
  match kvs with
  | [] => false
  | (k, _) :: rest => pystr_eqb key k || dict_has_key rest key
  end.

(** [type(v).__name__] *)
Definition type_name (v : pyval) : pystr :=
  match v with
  | PNone => lit "NoneType"
  | PBool _ => lit "bool"
  | PInt _ => lit "int"
  | PFloat _ => lit "float"
  | PStr _ => lit "str"
  | PList _ => lit "list"
  | PDict _ => lit "dict"
  end.

(** [isinstance(v, list)] *)
Definition isinstance_list (v : pyval) : bool :=
  match v with
  | PList _ => true
  | _ => false
  end.

(** [s == v] for a string [s]: only an equal string is equal to it. *)
Definition str_eq_val (s : pystr) (v : pyval) : bool :=
  match v with
  | PStr t => pystr_eqb s t
  | _ => false
  end.

(** ** Exceptions, and programs that call the inference service *)

(** An exception as the handler sees it: its class, and the text
    [str(e)] gives.  The ones modelled are instances of [Exception],
    which is what [except Exception] catches. *)
Record PyException : Type := { exc_class : string; exc_str : pystr }.

(** How a call ends: it returns a value or raises.  The reply of
    [ollama.chat] is read only by subscripting,
    [response['message']['content']], so it is a value of the same kind
    as the JSON ones: a dict-like object. *)
Inductive outcome : Type :=
| Returns (v : pyval)
| Raises (e : PyException).

(** The keyword arguments of [ollama.chat(model=..., messages=...)]. *)
Record ChatRequest : Type := { model : pystr; messages : pyval }.

(** A computation of the handler: it returns, raises, or calls
    [ollama.chat] and goes on with what the call did. *)
Inductive Prog (A : Type) : Type :=
| Ret (a : A)
| Raise (e : PyException)
| Call (req : ChatRequest) (k : outcome -> Prog A).
Arguments Ret {A} a.
Arguments Raise {A} e.
Arguments Call {A} req k.

Fixpoint bind {A B : Type} (p : Prog A) (f : A -> Prog B) : Prog B :=
  match p with
  | Ret a => f a
  | Raise e => Raise e
  | Call req k => Call req (fun o => bind (k o) f)
  end.

Notation "x <- p ;; q" := (bind p (fun x => q))
  (at level 61, p at next level, right associativity).

(** [try: body / except Exception as e: handler e] *)
Fixpoint try_except {A : Type} (body : Prog A) (handler : PyException -> Prog A)
  : Prog A :=
  match body with
  | Ret a => Ret a
  | Raise e => handler e
  | Call req k => Call req (fun o => try_except (k o) handler)
  end.

(** [a or b] on truth values: [b] is evaluated only when [a] is false. *)
Definition py_or (a b : Prog bool) : Prog bool :=
  x <- a ;; if x then Ret true else b.

(** [not a] *)
Definition py_not (a : Prog bool) : Prog bool :=
  x <- a ;; Ret (negb x).

Definition TypeError (msg : pystr) : PyException :=
  {| exc_class := "TypeError"; exc_str := msg |}.

(** [ollama.chat(model=..., messages=...)] *)
Definition ollama_chat (req : ChatRequest) : Prog pyval :=
  Call req (fun o => match o with
                     | Returns v => Ret v
                     | Raises e => Raise e
                     end).

(** One run against an inference client: what the handler did, and the
    calls the client received, in order. *)
Inductive Result (A : Type) : Type :=
| Returned (a : A)
| Propagated (e : PyException).
Arguments Returned {A} a.
Arguments Propagated {A} e.

Fixpoint exec {A : Type} (client : ChatRequest -> outcome) (p : Prog A)
  : Result A * list ChatRequest :=
  match p with
  | Ret a => (Returned a, [])
  | Raise e => (Propagated e, [])
  | Call req k =>
      let '(r, calls) := exec client (k (client req)) in (r, req :: calls)
  end.

(** ** Flask responses *)

Record Response : Type := { status : Z; body : pyval }.

(** [jsonify(v)]: a JSON response, with Flask's default status 200. *)
Definition jsonify (v : pyval) : Response := {| status := 200; body := v |}.

(** A view that returns the pair [(response, code)] answers with
    [response] under the status [code]. *)
Definition with_status (r : Response) (code : Z) : Response :=
  {| status := code; body := body r |}.

(** ** [str()] and [repr()] *)

Definition hexdigit (n : N) : N :=
  nth (N.to_nat n) (lit "0123456789abcdef") 0%N.

(** The low [digits] hexadecimal digits of [ch], most significant first. *)
Fixpoint hex (digits : nat) (ch : N) : pystr :=
  match digits with
  | O => []
  | S d => hex d (N.shiftr ch 4) ++ [hexdigit (N.land ch 15)]
  end.

Definition repr_int (z : Z) : pystr := lit (NilZero.string_of_int (Z.to_int z)).

(** ** Payloads and clients of the scenarios *)

(** The body [{"texts": [t1, t2, ...]}]. *)
Definition texts_body (texts : list pyval) : pyval :=
  PDict [ (lit "texts", PList texts) ].

(** A client that answers every call with a reply whose message has the
    content [content]. *)
Definition replying (content : pystr) : ChatRequest -> outcome :=
  fun _ =>
    Returns (PDict [ (lit "model", PStr (lit "llava"));
                     (lit "message",
                      PDict [ (lit "role", PStr (lit "assistant"));
                              (lit "content", PStr content) ]) ]).

(** A client that fails every call with the exception [e]. *)
Definition failing (e : PyException) : ChatRequest -> outcome :=
  fun _ => Raises e.

Definition timeout : PyException :=
  {| exc_class := "TimeoutError"; exc_str := lit "timed out" |}.

(** [str.isprintable] on the code points U+0000..U+00FF (Latin-1): the
    printable ones are U+0020..U+007E and U+00A1..U+00FF except the soft
    hyphen U+00AD.  Above U+00FF the answer takes the whole Unicode
    database, which this table does not hold: it is not [str.isprintable]
    there, and the requests run with it below have no such code point. *)
Definition latin1_isprintable (ch : N) : bool :=
  (N.leb 32 ch && N.leb ch 126)
  || (N.leb 161 ch && N.leb ch 255 && negb (N.eqb ch 173)).

Section Handler.

(** [str.isprintable] on one code point, a table of the Unicode
    database; [repr] consults it for the code points above U+007F. *)
Variable isprintable : N -> bool.

Definition BACKSLASH : N := 92.
Definition SQUOTE : N := 39.
Definition DQUOTE : N := 34.

(** [repr] of a string quotes it with ['], or with ["] when the string
    has a ['] and no ["]. *)
Definition repr_quote (s : pystr) : N :=
  if existsb (N.eqb SQUOTE) s && negb (existsb (N.eqb DQUOTE) s)
  then DQUOTE else SQUOTE.

Definition repr_char (quote ch : N) : pystr :=
  if N.eqb ch quote || N.eqb ch BACKSLASH then [BACKSLASH; ch]
  else if N.eqb ch 9 then lit "\t"
  else if N.eqb ch 10 then lit "\n"
  else if N.eqb ch 13 then lit "\r"
  else if N.ltb ch 32 || N.eqb ch 127 then lit "\x" ++ hex 2 ch
  else if N.ltb ch 127 then [ch]
  else if isprintable ch then [ch]
  else if N.leb ch 255 then lit "\x" ++ hex 2 ch
  else if N.leb ch 65535 then lit "\u" ++ hex 4 ch
  else lit "\U" ++ hex 8 ch.

Definition repr_str (s : pystr) : pystr :=
  let quote := repr_quote s in
  [quote] ++ flat_map (repr_char quote) s ++ [quote].

Fixpoint py_repr (v : pyval) : pystr :=
  match v with
  | PNone => lit "None"
  | PBool true => lit "True"
  | PBool false => lit "False"
  | PInt z => repr_int z
  | PFloat r => r
  | PStr s => repr_str s
  | PList xs => lit "[" ++ join (lit ", ") (map py_repr xs) ++ lit "]"
  | PDict kvs =>
      lit "{"
      ++ join (lit ", ")
           (map (fun '(k, x) => repr_str k ++ lit ": " ++ py_repr x) kvs)
      ++ lit "}"
  end.

(** [str(v)]: a string is itself, every other value prints as its
    [repr]. *)
Definition py_str (v : pyval) : pystr :=
  match v with
  | PStr s => s
  | _ => py_repr v
  end.

(** ** The operators of the validation *)

(** [key in container], for a string [key]: key membership in a dict,
    element membership in a list, substring in a string; a value of any
    other type is no container ([TypeError], in CPython 3.12's words). *)
Definition py_in (key : pystr) (container : pyval) : Prog bool :=
  match container with
  | PDict kvs => Ret (dict_has_key kvs key)
  | PList xs => Ret (existsb (str_eq_val key) xs)
  | PStr s => Ret (str_contains key s)
  | _ =>
      Raise (TypeError (lit "argument of type '" ++ type_name container
                        ++ lit "' is not iterable"))
  end.

Definition KeyError (key : pystr) : PyException :=
  {| exc_class := "KeyError"; exc_str := repr_str key |}.

(** [container[key]], for a string [key]: only a dict can be indexed by
    a string, and a missing key is a [KeyError], whose [str] is the
    [repr] of the key. *)
Definition py_getitem (container : pyval) (key : pystr) : Prog pyval :=
  match container with
  | PDict kvs =>
      match dict_get kvs key with
      | Some v => Ret v
      | None => Raise (KeyError key)
      end
  | PList _ =>
      Raise (TypeError (lit "list indices must be integers or slices, not str"))
  | PStr _ =>
      Raise (TypeError (lit "string indices must be integers, not 'str'"))
  | _ =>
      Raise (TypeError (lit "'" ++ type_name container
                        ++ lit "' object is not subscriptable"))
  end.

(** ** The view [process_ocr] *)

Definition TEXTS : pystr := lit "texts".

Definition INVALID_INPUT : pystr :=
  lit "Invalid input. Please provide a list of OCR-extracted texts.".

Definition SYSTEM_PROMPT : pystr :=
  lit "You are an expert text processor tasked with acquiring multiple OCR-extracted texts "
  ++ lit "from the same image into a single, accurate ground truth text using a majority voting technique. "
  ++ lit "Align the input strings, accounting for differences in length and word order. For each word position, "
  ++ lit "select the most common word across all inputs, defaulting to the most reliable input if there's no clear majority.".

(** The condition of the [if]:
    ['texts' not in data or not isinstance(data['texts'], list)]. *)
Definition invalid_input (data : pyval) : Prog bool :=
  py_or (py_not (py_in TEXTS data))
        (py_not (t <- py_getitem data TEXTS ;; Ret (isinstance_list t))).

(** The arguments of the call to [ollama.chat]. *)
Definition chat_request (extracted_text : pyval) : ChatRequest :=
  {| model := lit "llava";
     messages :=
       PList
         [ PDict [ (lit "role", PStr (lit "system"));
                   (lit "content", PStr SYSTEM_PROMPT) ];
           PDict [ (lit "role", PStr (lit "user"));
                   (lit "content",
                    PStr (lit "The list of OCR extracted text is "
                          ++ py_str extracted_text)) ] ] |}.

(** [response['message']['content']] *)
Definition reply_content (response : pyval) : Prog pyval :=
  message <- py_getitem response (lit "message") ;;
  py_getitem message (lit "content").

Definition validation_failure : Response :=
  with_status (jsonify (PDict [ (lit "error", PStr INVALID_INPUT) ])) 400.

Definition processing_failure (e : PyException) : Response :=
  with_status
    (jsonify
       (PDict [ (lit "error",
                 PStr (lit "An error occurred while processing: "
                       ++ exc_str e)) ]))
    500.

(** [process_ocr], on [data], the value [request.get_json()] gave. *)
Definition process_ocr (data : pyval) : Prog Response :=
  invalid <- invalid_input data ;;
  if invalid then Ret validation_failure
  else
    extracted_text <- py_getitem data TEXTS ;;
    try_except
      (response <- ollama_chat (chat_request extracted_text) ;;
       content <- reply_content response ;;
       Ret (jsonify (PDict [ (lit "processed_text", content) ])))
      (fun e => Ret (processing_failure e)).

(** What the handler does with the outcome of the call: the rest of the
    [try] block, under its [except]. *)
Definition after_chat (o : outcome) : Prog Response :=
  try_except
    (response <- match o with
                 | Returns v => Ret v
                 | Raises e => Raise e
                 end ;;
     content <- reply_content response ;;
     Ret (jsonify (PDict [ (lit "processed_text", content) ])))
    (fun e => Ret (processing_failure e)).

(** * Properties *)

(** ** The run-time operators *)

Lemma dict_has_key_get kvs key :
  dict_has_key kvs key
  = match dict_get kvs key with Some _ => true | None => false end.
Proof.
  induction kvs as [|[k v] rest IH]; simpl; [reflexivity|].
  destruct (pystr_eqb key k); simpl; [reflexivity | exact IH].
Qed.

(** Subscripting and [reply_content] never call the client: they return
    or raise. *)
Lemma py_getitem_pure container key :
  (exists v, py_getitem container key = Ret v)
  \/ (exists e, py_getitem container key = Raise e).
Proof.
  destruct container; simpl; try (right; eexists; reflexivity).
  destruct (dict_get kvs key); [left | right]; eexists; reflexivity.
Qed.

Lemma reply_content_pure response :
  (exists c, reply_content response = Ret c)
  \/ (exists e, reply_content response = Raise e).
Proof.
  unfold reply_content.
  destruct (py_getitem_pure response (lit "message")) as [[m ->]|[e ->]]; simpl.
  - apply py_getitem_pure.
  - right; eexists; reflexivity.
Qed.

(** ** Validation *)

Lemma invalid_input_dict kvs :
  invalid_input (PDict kvs)
  = Ret match dict_get kvs TEXTS with
        | Some v => negb (isinstance_list v)
        | None => true
        end.
Proof.
  unfold invalid_input, py_or, py_not; simpl.
  rewrite dict_has_key_get.
  destruct (dict_get kvs TEXTS); reflexivity.
Qed.

(** Only a [dict] whose ['texts'] is a [list] gets past the [if]. *)
Lemma invalid_input_false_inv data :
  invalid_input data = Ret false ->
  exists kvs l, data = PDict kvs /\ dict_get kvs TEXTS = Some (PList l).
Proof.
  destruct data as [ | b | z | r | s | xs | kvs ]; try discriminate.
  - unfold invalid_input, py_or, py_not; simpl.
    destruct (str_contains TEXTS s); discriminate.
  - unfold invalid_input, py_or, py_not; simpl.
    destruct (existsb (str_eq_val TEXTS) xs); discriminate.
  - rewrite invalid_input_dict.
    destruct (dict_get kvs TEXTS) as [[ | | | | | l | ]|] eqn:E;
      try discriminate.
    intros _. exists kvs, l. split; [reflexivity | exact E].
Qed.

(** The handler on a [dict], by what the dict has under ['texts']. *)
Lemma process_ocr_dict kvs :
  process_ocr (PDict kvs)
  = match dict_get kvs TEXTS with
    | Some (PList l) => Call (chat_request (PList l)) after_chat
    | _ => Ret validation_failure
    end.
Proof.
  unfold process_ocr. rewrite invalid_input_dict. simpl.
  destruct (dict_get kvs TEXTS) as [[ | | | | | l | ]|]; reflexivity.
Qed.

Lemma after_chat_returns reply c :
  reply_content reply = Ret c ->
  after_chat (Returns reply)
  = Ret (jsonify (PDict [ (lit "processed_text", c) ])).
Proof. intros E. unfold after_chat. simpl. rewrite E. reflexivity. Qed.

Lemma after_chat_raises e :
  after_chat (Raises e) = Ret (processing_failure e).
Proof. reflexivity. Qed.

Lemma after_chat_bad_reply reply e :
  reply_content reply = Raise e ->
  after_chat (Returns reply) = Ret (processing_failure e).
Proof. intros E. unfold after_chat. simpl. rewrite E. reflexivity. Qed.

(** After the call the handler always answers, with 200 or 500. *)
Lemma after_chat_answers o :
  exists r, after_chat o = Ret r /\ (status r = 200 \/ status r = 500)%Z.
Proof.
  destruct o as [reply|e].
  - destruct (reply_content_pure reply) as [[c E]|[e E]].
    + rewrite (after_chat_returns _ _ E). eexists; split; [reflexivity|].
      left; reflexivity.
    + rewrite (after_chat_bad_reply _ _ E). eexists; split; [reflexivity|].
      right; reflexivity.
  - rewrite after_chat_raises. eexists; split; [reflexivity|].
    right; reflexivity.
Qed.

(** A response that is not the success one is an object with the one
    field [error], a string. *)
Lemma after_chat_failure_body o r :
  after_chat o = Ret r -> status r <> 200%Z ->
  exists msg, body r = PDict [ (lit "error", PStr msg) ].
Proof.
  intros E Hs.
  assert (Hfail : forall e, Ret (processing_failure e) = Ret r ->
                            exists msg, body r = PDict [ (lit "error", PStr msg) ]).
  { intros e [= <-]. eexists; reflexivity. }
  destruct o as [reply|e].
  - destruct (reply_content_pure reply) as [[c Ec]|[e Ee]].
    + rewrite (after_chat_returns _ _ Ec) in E. injection E as <-.
      contradiction Hs; reflexivity.
    + rewrite (after_chat_bad_reply _ _ Ee) in E. exact (Hfail e E).
  - rewrite after_chat_raises in E. exact (Hfail e E).
Qed.

(** ** Runs *)

(** A run depends on the client only through its answers to the calls
    made. *)
Lemma exec_ext {A : Type} (p : Prog A) (c1 c2 : ChatRequest -> outcome) :
  (forall req, In req (snd (exec c1 p)) -> c1 req = c2 req) ->
  exec c1 p = exec c2 p.
Proof.
  induction p as [a | e | req k IH]; intros Hagree; simpl; try reflexivity.
  simpl in Hagree.
  destruct (exec c1 (k (c1 req))) as [r1 calls1] eqn:E1.
  simpl in Hagree.
  assert (Hreq : c1 req = c2 req) by (apply Hagree; left; reflexivity).
  rewrite <- Hreq, <- (IH (c1 req)), E1; [reflexivity|].
  intros req' Hin. apply Hagree. right. rewrite E1 in Hin. exact Hin.
Qed.

Lemma exec_process_ocr_list client kvs l :
  dict_get kvs TEXTS = Some (PList l) ->
  exec client (process_ocr (PDict kvs))
  = (fst (exec client (after_chat (client (chat_request (PList l))))),
     [chat_request (PList l)]).
Proof.
  intros E. rewrite process_ocr_dict, E. simpl.
  destruct (after_chat_answers (client (chat_request (PList l))))
    as [r [-> _]].
  reflexivity.
Qed.

(** No call is made unless the body is a [dict] with a [list] under
    ['texts']: every other body is answered, or fails, before the call. *)
Lemma no_call_unless_valid client data :
  invalid_input data <> Ret false ->
  snd (exec client (process_ocr data)) = [].
Proof.
  intros Hbad. unfold process_ocr.
  destruct (invalid_input data) as [[|] | e | req k] eqn:E; simpl.
  - reflexivity.
  - contradiction Hbad; reflexivity.
  - reflexivity.
  - exfalso. revert E.
    destruct data as [ | b | z | r | s | xs | kvs ]; try discriminate.
    + unfold invalid_input, py_or, py_not; simpl.
      destruct (str_contains TEXTS s); discriminate.
    + unfold invalid_input, py_or, py_not; simpl.
      destruct (existsb (str_eq_val TEXTS) xs); discriminate.
    + rewrite invalid_input_dict; discriminate.
Qed.

(** On a [dict] body, whatever is not a 200 answer carries a JSON object
    with the single field [error]. *)
Lemma dict_body_failure_is_error_object kvs client r :
  fst (exec client (process_ocr (PDict kvs))) = Returned r ->
  status r <> 200%Z ->
  exists msg, body r = PDict [ (lit "error", PStr msg) ].
Proof.
  rewrite process_ocr_dict.
  assert (Hrej : fst (exec client (Ret validation_failure)) = Returned r ->
                 exists msg, body r = PDict [ (lit "error", PStr msg) ]).
  { intros [= <-]. eexists; reflexivity. }
  destruct (dict_get kvs TEXTS) as [v|];
    [destruct v as [ | | | | | l | ] |]; intros E Hs; try exact (Hrej E).
  simpl in E.
  destruct (after_chat_answers (client (chat_request (PList l))))
    as [r' [Er' _]].
  rewrite Er' in E. simpl in E. injection E as <-.
  exact (after_chat_failure_body _ _ Er' Hs).
Qed.

(** ** The claims *)

(** C1. When the request body is a JSON object that has no [texts] field,
    or whose [texts] value is not a list, the handler returns HTTP 400
    with exactly the body
    [{"error": "Invalid input. Please provide a list of OCR-extracted texts."}]. *)
Theorem invalid_texts_gives_400 kvs :
  dict_get kvs (lit "texts") = None
  \/ (exists v, dict_get kvs (lit "texts") = Some v
                /\ isinstance_list v = false) ->
  process_ocr (PDict kvs)
  = Ret {| status := 400;
           body := PDict [ (lit "error",
                            PStr (lit "Invalid input. Please provide a list of OCR-extracted texts.")) ] |}.
Proof.
  change (lit "texts") with TEXTS.
  intros H. rewrite process_ocr_dict.
  destruct H as [-> | [v [-> Hv]]]; [reflexivity|].
  destruct v; try reflexivity. discriminate Hv.
Qed.

(** C2. When [texts] is a list and the inference client returns a reply
    that has, under [message], a dict with the value [c] under [content],
    the handler returns HTTP 200 with the body [{"processed_text": c}]. *)
Theorem reply_gives_200 kvs l client rk mk c :
  dict_get kvs (lit "texts") = Some (PList l) ->
  client (chat_request (PList l)) = Returns (PDict rk) ->
  dict_get rk (lit "message") = Some (PDict mk) ->
  dict_get mk (lit "content") = Some c ->
  fst (exec client (process_ocr (PDict kvs)))
  = Returned {| status := 200;
                body := PDict [ (lit "processed_text", c) ] |}.
Proof.
  change (lit "texts") with TEXTS.
  intros Ht Hc Hm Hct.
  rewrite (exec_process_ocr_list _ _ _ Ht), Hc.
  rewrite (after_chat_returns (PDict rk) c); [reflexivity|].
  unfold reply_content. simpl. rewrite Hm. simpl. rewrite Hct. reflexivity.
Qed.

(** C3. When [texts] is a list and the inference call raises an error
    [e], or reading [message.content] off its reply raises [e], the
    handler returns HTTP 500 with exactly the body
    [{"error": "An error occurred while processing: " + str(e)}]: the
    error is answered, it does not leave the handler. *)
Theorem inference_error_gives_500 kvs l client e :
  dict_get kvs (lit "texts") = Some (PList l) ->
  client (chat_request (PList l)) = Raises e
  \/ (exists reply, client (chat_request (PList l)) = Returns reply
                    /\ reply_content reply = Raise e) ->
  exec client (process_ocr (PDict kvs))
  = (Returned {| status := 500;
                 body := PDict [ (lit "error",
                                  PStr (lit "An error occurred while processing: "
                                        ++ exc_str e)) ] |},
     [chat_request (PList l)]).
Proof.
  change (lit "texts") with TEXTS.
  intros Ht H. rewrite (exec_process_ocr_list _ _ _ Ht).
  destruct H as [-> | [reply [-> Hr]]].
  - rewrite after_chat_raises. reflexivity.
  - rewrite (after_chat_bad_reply _ _ Hr). reflexivity.
Qed.

(** C4. For a request that passes validation, the handler calls the
    inference service once, with the model ["llava"] and exactly two
    messages in this order: a system message with the fixed instruction
    [SYSTEM_PROMPT], then a user message whose content is
    ["The list of OCR extracted text is "] followed by [str()] of the
    [texts] list. *)
Theorem outbound_request_shape data :
  invalid_input data = Ret false ->
  exists kvs l,
    data = PDict kvs /\ dict_get kvs (lit "texts") = Some (PList l) /\
    forall client,
      snd (exec client (process_ocr data))
      = [ {| model := lit "llava";
             messages :=
               PList
                 [ PDict [ (lit "role", PStr (lit "system"));
                           (lit "content", PStr SYSTEM_PROMPT) ];
                   PDict [ (lit "role", PStr (lit "user"));
                           (lit "content",
                            PStr (lit "The list of OCR extracted text is "
                                  ++ py_str (PList l))) ] ] |} ].
Proof.
  intros Hv. destruct (invalid_input_false_inv _ Hv) as [kvs [l [-> Ht]]].
  exists kvs, l. split; [reflexivity|]. split; [exact Ht|].
  intros client. rewrite (exec_process_ocr_list _ _ _ Ht). reflexivity.
Qed.

(** C5. A request that fails validation (a JSON object with no [texts]
    field, or with a [texts] that is not a list) is answered with HTTP
    400 and the inference service is not called. *)
Theorem rejected_request_makes_no_call kvs client :
  dict_get kvs (lit "texts") = None
  \/ (exists v, dict_get kvs (lit "texts") = Some v
                /\ isinstance_list v = false) ->
  exec client (process_ocr (PDict kvs))
  = (Returned {| status := 400;
                 body := PDict [ (lit "error",
                                  PStr (lit "Invalid input. Please provide a list of OCR-extracted texts.")) ] |},
     []).
Proof.
  change (lit "texts") with TEXTS.
  intros H. rewrite process_ocr_dict.
  destruct H as [-> | [v [-> Hv]]]; [reflexivity|].
  destruct v; try reflexivity. discriminate Hv.
Qed.

(** C6. Whenever [texts] is a list, of any length and with elements of
    any type, validation succeeds: the handler goes on to the inference
    call, made with that list, and its answer is not HTTP 400. *)
Theorem list_texts_pass_validation kvs l :
  dict_get kvs (lit "texts") = Some (PList l) ->
  invalid_input (PDict kvs) = Ret false
  /\ forall client,
       snd (exec client (process_ocr (PDict kvs))) = [chat_request (PList l)]
       /\ exists r, fst (exec client (process_ocr (PDict kvs))) = Returned r
                    /\ status r <> 400%Z.
Proof.
  change (lit "texts") with TEXTS.
  intros Ht. split.
  - rewrite invalid_input_dict, Ht. reflexivity.
  - intros client. rewrite (exec_process_ocr_list _ _ _ Ht). simpl.
    split; [reflexivity|].
    destruct (after_chat_answers (client (chat_request (PList l))))
      as [r [-> Hs]].
    exists r. split; [reflexivity|]. destruct Hs as [-> | ->]; discriminate.
Qed.

(** C7, at the body [null]: ['texts' not in None] raises a [TypeError]
    outside the [try], so the error leaves the handler, before any call
    to the inference service, and no JSON error response is built. *)
Theorem null_body_error_escapes client :
  exists e,
    exec client (process_ocr PNone) = (Propagated e, [])
    /\ exc_class e = "TypeError"%string.
Proof. eexists. split; reflexivity. Qed.

(** C9. Fields other than [texts] do not interfere: for two JSON objects
    with the same value under [texts] (or both without it), the handler
    is the same computation, so it makes the same outbound calls and,
    when the clients give the same outcome, returns the same response. *)
Theorem other_fields_do_not_interfere kvs1 kvs2 :
  dict_get kvs1 (lit "texts") = dict_get kvs2 (lit "texts") ->
  process_ocr (PDict kvs1) = process_ocr (PDict kvs2)
  /\ forall c1 c2,
       (forall req, In req (snd (exec c1 (process_ocr (PDict kvs1)))) ->
                    c1 req = c2 req) ->
       exec c1 (process_ocr (PDict kvs1)) = exec c2 (process_ocr (PDict kvs2)).
Proof.
  change (lit "texts") with TEXTS.
  intros Ht.
  assert (E : process_ocr (PDict kvs1) = process_ocr (PDict kvs2))
    by (rewrite !process_ocr_dict, Ht; reflexivity).
  split; [exact E|].
  intros c1 c2 Hagree. rewrite <- E. apply exec_ext. exact Hagree.
Qed.

(** C10. When the parsed body is a JSON object, the handler returns a
    response, and its status is 200, 400 or 500. *)
Theorem status_is_200_400_or_500 kvs client :
  exists r,
    fst (exec client (process_ocr (PDict kvs))) = Returned r
    /\ (status r = 200 \/ status r = 400 \/ status r = 500)%Z.
Proof.
  rewrite process_ocr_dict.
  destruct (dict_get kvs TEXTS) as [v|];
    [destruct v as [ | | | | | l | ] |];
    try (exists validation_failure; split; [reflexivity | right; left; reflexivity]).
  simpl.
  destruct (after_chat_answers (client (chat_request (PList l))))
    as [r [-> Hs]].
  exists r. split; [reflexivity|]. tauto.
Qed.

(** On a [dict] body every run ends in a response. *)
Lemma dict_body_is_answered kvs client :
  exists r,
    fst (exec client (process_ocr (PDict kvs))) = Returned r
    /\ (status r = 200 \/ status r = 400 \/ status r = 500)%Z.
Proof.
  rewrite process_ocr_dict.
  destruct (dict_get kvs TEXTS) as [v|];
    [destruct v as [ | | | | | l | ] |];
    try (exists validation_failure; split; [reflexivity | right; left; reflexivity]).
  simpl.
  destruct (after_chat_answers (client (chat_request (PList l))))
    as [r [-> Hs]].
  exists r. split; [reflexivity|]. tauto.
Qed.

(** ** Further properties of the handler *)

(** *** What [in] decides *)

Lemma pystr_eqb_eq s t : pystr_eqb s t = true <-> s = t.
Proof.
  revert t. induction s as [|a s IH]; intros [|b t]; simpl;
    try (split; [discriminate | discriminate]); [tauto|].
  rewrite andb_true_iff, N.eqb_eq, IH.
  split; [intros [-> ->]; reflexivity | intros [= -> ->]; auto].
Qed.

Lemma existsb_str_eq_val key xs :
  existsb (str_eq_val key) xs = true <-> In (PStr key) xs.
Proof.
  rewrite existsb_exists. split.
  - intros [x [Hin Hx]]. destruct x; try discriminate Hx.
    simpl in Hx. apply pystr_eqb_eq in Hx. subst. exact Hin.
  - intros Hin. exists (PStr key). split; [exact Hin|].
    simpl. apply pystr_eqb_eq. reflexivity.
Qed.

Lemma starts_with_prefix p s :
  starts_with p s = true <-> exists rest, s = p ++ rest.
Proof.
  revert s. induction p as [|a p IH]; intros s; simpl.
  - split; [intros _; exists s; reflexivity | reflexivity].
  - destruct s as [|b s].
    + split; [discriminate | intros [rest [=]]].
    + rewrite andb_true_iff, N.eqb_eq, IH. split.
      * intros [-> [rest ->]]. exists rest. reflexivity.
      * intros [rest [= -> ->]]. split; [reflexivity | exists rest; reflexivity].
Qed.

Lemma str_contains_substring sub s :
  str_contains sub s = true <-> exists before after, s = before ++ sub ++ after.
Proof.
  induction s as [|c s IH].
  - simpl. rewrite orb_false_r, starts_with_prefix. split.
    + intros [rest E]. exists [], rest. exact E.
    + intros [before [after E]]. destruct before; [|discriminate E].
      exists after. exact E.
  - change (str_contains sub (c :: s))
      with (starts_with sub (c :: s) || str_contains sub s).
    rewrite orb_true_iff, starts_with_prefix, IH. split.
    + intros [[rest E] | [before [after E]]].
      * exists [], rest. exact E.
      * exists (c :: before), after. simpl. rewrite E. reflexivity.
    + intros [[|b before] [after E]].
      * left. exists after. exact E.
      * right. injection E as _ E. exists before, after. exact E.
Qed.

(** *** Bodies that are not JSON objects *)

(** X1. A body that is a JSON array without the element ["texts"], or a
    JSON string without the substring [texts], is rejected like an object
    without the field: ['texts' not in data] holds, so the answer is the
    400 response, and the inference service is not called. *)
Theorem non_object_body_without_texts_rejected data client :
  (exists xs, data = PList xs /\ ~ In (PStr (lit "texts")) xs)
  \/ (exists s, data = PStr s
                /\ ~ exists before after, s = before ++ lit "texts" ++ after) ->
  exec client (process_ocr data)
  = (Returned {| status := 400;
                 body := PDict [ (lit "error",
                                  PStr (lit "Invalid input. Please provide a list of OCR-extracted texts.")) ] |},
     []).
Proof.
  change (lit "texts") with TEXTS.
  intros [[xs [-> Hno]] | [s [-> Hno]]].
  - rewrite <- existsb_str_eq_val in Hno. apply not_true_is_false in Hno.
    unfold process_ocr, invalid_input, py_or, py_not. simpl.
    rewrite Hno. reflexivity.
  - rewrite <- str_contains_substring in Hno. apply not_true_is_false in Hno.
    unfold process_ocr, invalid_input, py_or, py_not. simpl.
    rewrite Hno. reflexivity.
Qed.

(** X2. A body that is a JSON array with the element ["texts"], or a JSON
    string with the substring [texts], passes ['texts' not in data] and
    then fails at [data['texts']]: a [TypeError] leaves the handler,
    before any call to the inference service. *)
Theorem non_object_body_with_texts_raises data client :
  (exists xs, data = PList xs /\ In (PStr (lit "texts")) xs)
  \/ (exists s before after,
         data = PStr s /\ s = before ++ lit "texts" ++ after) ->
  exists e,
    exec client (process_ocr data) = (Propagated e, [])
    /\ exc_class e = "TypeError"%string.
Proof.
  change (lit "texts") with TEXTS.
  intros [[xs [-> Hin]] | [s [before [after [-> Hs]]]]].
  - rewrite <- existsb_str_eq_val in Hin.
    unfold process_ocr, invalid_input, py_or, py_not. simpl.
    rewrite Hin. simpl. eexists. split; reflexivity.
  - assert (Hc : str_contains TEXTS s = true)
      by (apply str_contains_substring; exists before, after; exact Hs).
    unfold process_ocr, invalid_input, py_or, py_not. simpl.
    rewrite Hc. simpl. eexists. split; reflexivity.
Qed.

(** X3. A body that is [null], a boolean or a number is no container:
    ['texts' not in data] raises a [TypeError], which leaves the handler
    before any call to the inference service. *)
Theorem scalar_body_raises data client :
  match data with
  | PNone | PBool _ | PInt _ | PFloat _ => True
  | _ => False
  end ->
  exists e,
    exec client (process_ocr data) = (Propagated e, [])
    /\ exc_class e = "TypeError"%string.
Proof.
  destruct data; intros H; try contradiction H;
    eexists; split; reflexivity.
Qed.

(** *** Calls and escapes *)

(** X4. The handler calls the inference service at most once per request
    (it never retries), and it calls it exactly when the body is a JSON
    object with a list under [texts]. *)
Theorem at_most_one_call data client :
  (List.length (snd (exec client (process_ocr data))) <= 1)%nat
  /\ (snd (exec client (process_ocr data)) <> []
      <-> exists kvs l,
            data = PDict kvs /\ dict_get kvs (lit "texts") = Some (PList l)).
Proof.
  change (lit "texts") with TEXTS.
  destruct (invalid_input data) as [[|] | e | req k] eqn:E.
  1, 3, 4:
    assert (Hbad : invalid_input data <> Ret false) by (rewrite E; discriminate);
    rewrite (no_call_unless_valid client data Hbad); split;
      [ simpl; apply Nat.le_0_l
      | split; [intros H; contradiction H; reflexivity|];
        intros [kvs [l [-> Ht]]]; rewrite invalid_input_dict, Ht in E;
        discriminate E ].
  destruct (invalid_input_false_inv _ E) as [kvs [l [-> Ht]]].
  rewrite (exec_process_ocr_list _ _ _ Ht). simpl. split.
  - apply Nat.le_refl.
  - split; [intros _; exists kvs, l; split; [reflexivity | exact Ht]|].
    intros _. discriminate.
Qed.

(** X5. From the validation on, that is once [request.get_json()] has
    returned the parsed body [data], and with a client that returns or
    raises an instance of [Exception]: an exception leaves the handler
    only when [data] is not a JSON object; it is then a [TypeError] of
    the validation, raised before any call to the inference service. *)
Theorem only_validation_type_errors_escape data client e :
  fst (exec client (process_ocr data)) = Propagated e ->
  exc_class e = "TypeError"%string
  /\ (forall kvs, data <> PDict kvs)
  /\ snd (exec client (process_ocr data)) = [].
Proof.
  destruct data as [ | b | z | r | s | xs | kvs ].
  1-4: intros [= <-]; repeat split; discriminate.
  - unfold process_ocr, invalid_input, py_or, py_not. simpl.
    destruct (str_contains TEXTS s); simpl; intros [= <-];
      repeat split; discriminate.
  - unfold process_ocr, invalid_input, py_or, py_not. simpl.
    destruct (existsb (str_eq_val TEXTS) xs); simpl; intros [= <-];
      repeat split; discriminate.
  - destruct (dict_body_is_answered kvs client) as [r [Er _]].
    rewrite Er. discriminate.
Qed.

(** *** What each status tells the caller *)

(** Reading the content off a reply succeeds exactly on a dict whose
    [message] is a dict with a [content]. *)
Lemma reply_content_ret_iff reply c :
  reply_content reply = Ret c
  <-> exists rk mk,
        reply = PDict rk
        /\ dict_get rk (lit "message") = Some (PDict mk)
        /\ dict_get mk (lit "content") = Some c.
Proof.
  unfold reply_content. split.
  - destruct reply as [ | | | | | | rk ]; try discriminate. simpl.
    destruct (dict_get rk (lit "message")) as [m|] eqn:Em; [|discriminate].
    simpl. destruct m as [ | | | | | | mk ]; try discriminate. simpl.
    destruct (dict_get mk (lit "content")) as [c'|] eqn:Ec; [|discriminate].
    intros [= ->]. exists rk, mk. repeat split; assumption.
  - intros [rk [mk [-> [Em Ec]]]]. simpl. rewrite Em. simpl. rewrite Ec.
    reflexivity.
Qed.

(** The run after the call, by the outcome of the call. *)
Lemma exec_after_chat client o :
  exec client (after_chat o)
  = (Returned
       match o with
       | Raises e => processing_failure e
       | Returns reply =>
           match reply_content reply with
           | Ret c => jsonify (PDict [ (lit "processed_text", c) ])
           | Raise e => processing_failure e
           | Call _ _ => validation_failure
           end
       end, []).
Proof.
  destruct o as [reply|e]; [|reflexivity].
  destruct (reply_content_pure reply) as [[c E]|[e E]]; rewrite E.
  - rewrite (after_chat_returns _ _ E). reflexivity.
  - rewrite (after_chat_bad_reply _ _ E). reflexivity.
Qed.

(** The response on a [dict] with a list under ['texts']. *)
Lemma answer_process_ocr_list client kvs l :
  dict_get kvs TEXTS = Some (PList l) ->
  fst (exec client (process_ocr (PDict kvs)))
  = Returned
      match client (chat_request (PList l)) with
      | Raises e => processing_failure e
      | Returns reply =>
          match reply_content reply with
          | Ret c => jsonify (PDict [ (lit "processed_text", c) ])
          | Raise e => processing_failure e
          | Call _ _ => validation_failure
          end
      end.
Proof.
  intros Ht. rewrite (exec_process_ocr_list _ _ _ Ht), exec_after_chat.
  reflexivity.
Qed.

(** The run on a [dict] that validation rejects. *)
Lemma exec_process_ocr_rejected client kvs :
  (forall l, dict_get kvs TEXTS <> Some (PList l)) ->
  exec client (process_ocr (PDict kvs)) = (Returned validation_failure, []).
Proof.
  intros Hno. rewrite process_ocr_dict.
  destruct (dict_get kvs TEXTS) as [v|];
    [destruct v as [ | | | | | l | ] |]; try reflexivity.
  contradiction (Hno l). reflexivity.
Qed.

(** A [dict] has a list under ['texts'], or validation rejects it. *)
Lemma texts_list_or_not kvs :
  (exists l, dict_get kvs TEXTS = Some (PList l))
  \/ ((forall l, dict_get kvs TEXTS <> Some (PList l))
      /\ (dict_get kvs TEXTS = None
          \/ exists v, dict_get kvs TEXTS = Some v /\ isinstance_list v = false)).
Proof.
  destruct (dict_get kvs TEXTS) as [v|];
    [destruct v as [ | | | | | l | ] |];
    try (left; eexists; reflexivity);
    right; (split; [intros l'; discriminate|]);
    try (left; reflexivity);
    right; eexists; split; reflexivity.
Qed.

(** X6. On a JSON object, the answer is a 200 exactly when [texts] is a
    list and the inference client returned a dict whose [message] is a
    dict with a [content]; the body is then [{"processed_text": content}]. *)
Theorem status_200_iff_wellformed_reply kvs client r :
  fst (exec client (process_ocr (PDict kvs))) = Returned r /\ status r = 200%Z
  <-> exists l rk mk c,
        dict_get kvs (lit "texts") = Some (PList l)
        /\ client (chat_request (PList l)) = Returns (PDict rk)
        /\ dict_get rk (lit "message") = Some (PDict mk)
        /\ dict_get mk (lit "content") = Some c
        /\ r = {| status := 200;
                  body := PDict [ (lit "processed_text", c) ] |}.
Proof.
  change (lit "texts") with TEXTS. split.
  - intros [Er Hs].
    destruct (texts_list_or_not kvs) as [[l Ht] | [Hno _]].
    2: { rewrite (exec_process_ocr_rejected _ _ Hno) in Er.
         injection Er as <-. discriminate Hs. }
    rewrite (answer_process_ocr_list _ _ _ Ht) in Er. injection Er as Er.
    destruct (client (chat_request (PList l))) as [reply|e] eqn:Ec;
      [|subst r; discriminate Hs].
    destruct (reply_content reply) as [c|e|req k] eqn:Erc;
      try (subst r; discriminate Hs).
    apply reply_content_ret_iff in Erc. destruct Erc as [rk [mk [-> [Em Ect]]]].
    exists l, rk, mk, c. subst r. repeat split; assumption.
  - intros [l [rk [mk [c [Ht [Ec [Em [Ect ->]]]]]]]].
    split; [|reflexivity].
    rewrite (answer_process_ocr_list _ _ _ Ht), Ec.
    assert (Erc : reply_content (PDict rk) = Ret c)
      by (apply reply_content_ret_iff; exists rk, mk; repeat split; assumption).
    rewrite Erc. reflexivity.
Qed.

(** X7. On a JSON object, the answer is a 400 exactly when [texts] is
    missing or is not a list; the body is then the fixed validation
    message, and no call was made. *)
Theorem status_400_iff_invalid_texts kvs client r :
  fst (exec client (process_ocr (PDict kvs))) = Returned r /\ status r = 400%Z
  <-> (dict_get kvs (lit "texts") = None
       \/ exists v, dict_get kvs (lit "texts") = Some v
                    /\ isinstance_list v = false)
      /\ r = {| status := 400;
                body := PDict [ (lit "error",
                                 PStr (lit "Invalid input. Please provide a list of OCR-extracted texts.")) ] |}
      /\ snd (exec client (process_ocr (PDict kvs))) = [].
Proof.
  change (lit "texts") with TEXTS.
  destruct (texts_list_or_not kvs) as [[l Ht] | [Hno Hbad]].
  - split.
    + intros [Er Hs]. exfalso.
      rewrite (exec_process_ocr_list _ _ _ Ht) in Er. simpl in Er.
      destruct (after_chat_answers (client (chat_request (PList l))))
        as [r' [Er' Hs']].
      rewrite Er' in Er. injection Er as <-.
      destruct Hs' as [H|H]; rewrite H in Hs; discriminate Hs.
    + rewrite Ht. intros [[H | [v [[= <-] Hv]]] _]; discriminate.
  - rewrite (exec_process_ocr_rejected _ _ Hno). split.
    + intros [[= <-] _]. split; [exact Hbad|]. split; reflexivity.
    + intros [_ [-> _]]. split; reflexivity.
Qed.

(** X8. On a JSON object, the answer is a 500 exactly when [texts] is a
    list and the inference call raised, or reading [message.content] off
    its reply raised; the body then carries the text of that exception
    after the fixed prefix. *)
Theorem status_500_iff_inference_error kvs client r :
  fst (exec client (process_ocr (PDict kvs))) = Returned r /\ status r = 500%Z
  <-> exists l e,
        dict_get kvs (lit "texts") = Some (PList l)
        /\ (client (chat_request (PList l)) = Raises e
            \/ exists reply, client (chat_request (PList l)) = Returns reply
                             /\ reply_content reply = Raise e)
        /\ r = {| status := 500;
                  body := PDict [ (lit "error",
                                   PStr (lit "An error occurred while processing: "
                                         ++ exc_str e)) ] |}.
Proof.
  change (lit "texts") with TEXTS. split.
  - intros [Er Hs].
    destruct (texts_list_or_not kvs) as [[l Ht] | [Hno _]].
    2: { rewrite (exec_process_ocr_rejected _ _ Hno) in Er.
         injection Er as <-. discriminate Hs. }
    rewrite (answer_process_ocr_list _ _ _ Ht) in Er. injection Er as Er.
    destruct (client (chat_request (PList l))) as [reply|e] eqn:Ec.
    + destruct (reply_content reply) as [c|e|req k] eqn:Erc;
        try (subst r; discriminate Hs).
      exists l, e. split; [exact Ht|]. split; [|subst r; reflexivity].
      right. exists reply. split; [exact Ec | exact Erc].
    + exists l, e. split; [exact Ht|]. split; [|subst r; reflexivity].
      left. exact Ec.
  - intros [l [e [Ht [H ->]]]]. split; [|reflexivity].
    rewrite (answer_process_ocr_list _ _ _ Ht).
    destruct H as [-> | [reply [-> Erc]]]; [reflexivity|].
    rewrite Erc. reflexivity.
Qed.

(** *** Malformed replies *)

(** X9. A reply without the key [message] is answered with 500, and the
    error text is the [KeyError]'s, the quoted key: ['message']. *)
Theorem reply_without_message_key kvs l client rk :
  dict_get kvs (lit "texts") = Some (PList l) ->
  client (chat_request (PList l)) = Returns (PDict rk) ->
  dict_get rk (lit "message") = None ->
  exec client (process_ocr (PDict kvs))
  = (Returned {| status := 500;
                 body := PDict [ (lit "error",
                                  PStr (lit "An error occurred while processing: 'message'")) ] |},
     [chat_request (PList l)]).
Proof.
  change (lit "texts") with TEXTS.
  intros Ht Hc Hm. rewrite (exec_process_ocr_list _ _ _ Ht), Hc.
  rewrite (after_chat_bad_reply (PDict rk) (KeyError (lit "message"))).
  - reflexivity.
  - unfold reply_content. simpl. rewrite Hm. reflexivity.
Qed.

(** X10. A reply whose [message] is a dict without the key [content] is
    answered with 500, and the error text is the quoted key: ['content']. *)
Theorem reply_without_content_key kvs l client rk mk :
  dict_get kvs (lit "texts") = Some (PList l) ->
  client (chat_request (PList l)) = Returns (PDict rk) ->
  dict_get rk (lit "message") = Some (PDict mk) ->
  dict_get mk (lit "content") = None ->
  exec client (process_ocr (PDict kvs))
  = (Returned {| status := 500;
                 body := PDict [ (lit "error",
                                  PStr (lit "An error occurred while processing: 'content'")) ] |},
     [chat_request (PList l)]).
Proof.
  change (lit "texts") with TEXTS.
  intros Ht Hc Hm Hct. rewrite (exec_process_ocr_list _ _ _ Ht), Hc.
  rewrite (after_chat_bad_reply (PDict rk) (KeyError (lit "content"))).
  - reflexivity.
  - unfold reply_content. simpl. rewrite Hm. simpl. rewrite Hct. reflexivity.
Qed.

(** *** What the response depends on *)

(** X11. The handler puts nothing of the request into its response: for
    two requests with lists under [texts], whatever the lists, the same
    outcome of the inference call gives the same response. *)
Theorem response_depends_on_outcome_only kvs1 l1 kvs2 l2 c1 c2 :
  dict_get kvs1 (lit "texts") = Some (PList l1) ->
  dict_get kvs2 (lit "texts") = Some (PList l2) ->
  c1 (chat_request (PList l1)) = c2 (chat_request (PList l2)) ->
  fst (exec c1 (process_ocr (PDict kvs1)))
  = fst (exec c2 (process_ocr (PDict kvs2))).
Proof.
  change (lit "texts") with TEXTS.
  intros H1 H2 Ho.
  rewrite (exec_process_ocr_list _ _ _ H1), (exec_process_ocr_list _ _ _ H2).
  rewrite !exec_after_chat, Ho. reflexivity.
Qed.

(** X12. Of a reply, only what is under [message] counts: two replies
    that are dicts with the same value under [message] (or both without
    it) give the same response, whatever their other fields. *)
Theorem reply_other_fields_ignored kvs l c1 c2 rk1 rk2 :
  dict_get kvs (lit "texts") = Some (PList l) ->
  c1 (chat_request (PList l)) = Returns (PDict rk1) ->
  c2 (chat_request (PList l)) = Returns (PDict rk2) ->
  dict_get rk1 (lit "message") = dict_get rk2 (lit "message") ->
  exec c1 (process_ocr (PDict kvs)) = exec c2 (process_ocr (PDict kvs)).
Proof.
  change (lit "texts") with TEXTS.
  intros Ht H1 H2 Hm.
  rewrite !(exec_process_ocr_list _ _ _ Ht), !exec_after_chat, H1, H2.
  assert (E : reply_content (PDict rk1) = reply_content (PDict rk2))
    by (unfold reply_content; simpl; rewrite Hm; reflexivity).
  rewrite E. reflexivity.
Qed.

(** *** What the model is shown *)

(** A string of printable ASCII characters without ['] and [\] prints as
    itself between single quotes. *)
Lemma repr_str_plain s :
  Forall (fun ch => (32 <= ch < 127)%N /\ ch <> 39%N /\ ch <> 92%N) s ->
  repr_str s = [39%N] ++ s ++ [39%N].
Proof.
  intros Hs.
  assert (Hq : repr_quote s = SQUOTE).
  { unfold repr_quote.
    assert (E : existsb (N.eqb SQUOTE) s = false).
    { induction Hs as [|ch s [_ [H39 _]] _ IH]; [reflexivity|].
      cbn [existsb]. rewrite IH, orb_false_r. apply N.eqb_neq.
      unfold SQUOTE. congruence. }
    rewrite E. reflexivity. }
  unfold repr_str. rewrite Hq. unfold SQUOTE.
  assert (E : flat_map (repr_char 39) s = s); [|rewrite E; reflexivity].
  clear Hq.
  induction Hs as [|ch s [[Hlo Hhi] [H39 H92]] _ IH]; [reflexivity|].
  cbn [flat_map]. rewrite IH. unfold repr_char, BACKSLASH.
  replace (N.eqb ch 39) with false by (symmetry; apply N.eqb_neq; exact H39).
  replace (N.eqb ch 92) with false by (symmetry; apply N.eqb_neq; exact H92).
  replace (N.eqb ch 9) with false by (symmetry; apply N.eqb_neq; lia).
  replace (N.eqb ch 10) with false by (symmetry; apply N.eqb_neq; lia).
  replace (N.eqb ch 13) with false by (symmetry; apply N.eqb_neq; lia).
  replace (N.ltb ch 32) with false by (symmetry; apply N.ltb_ge; lia).
  replace (N.eqb ch 127) with false by (symmetry; apply N.eqb_neq; lia).
  replace (N.ltb ch 127) with true by (symmetry; apply N.ltb_lt; lia).
  reflexivity.
Qed.

(** X13. When [texts] is a list of strings made of printable ASCII
    characters other than ['] and [\], the user message shows them
    verbatim: each between single quotes, in order, separated by [, ],
    inside square brackets, after the fixed sentence. *)
Theorem plain_texts_shown_verbatim kvs ss client :
  dict_get kvs (lit "texts") = Some (PList (map PStr ss)) ->
  Forall (Forall (fun ch => (32 <= ch < 127)%N /\ ch <> 39%N /\ ch <> 92%N)) ss ->
  snd (exec client (process_ocr (PDict kvs)))
  = [ {| model := lit "llava";
         messages :=
           PList
             [ PDict [ (lit "role", PStr (lit "system"));
                       (lit "content", PStr SYSTEM_PROMPT) ];
               PDict [ (lit "role", PStr (lit "user"));
                       (lit "content",
                        PStr (lit "The list of OCR extracted text is "
                              ++ lit "["
                              ++ join (lit ", ")
                                   (map (fun s => lit "'" ++ s ++ lit "'") ss)
                              ++ lit "]")) ] ] |} ].
Proof.
  change (lit "texts") with TEXTS.
  intros Ht Hplain. rewrite (exec_process_ocr_list _ _ _ Ht).
  unfold snd, chat_request, py_str, py_repr; fold py_repr.
  rewrite map_map.
  assert (E : map (fun s => py_repr (PStr s)) ss
              = map (fun s => lit "'" ++ s ++ lit "'") ss).
  { apply map_ext_in. intros s Hin.
    rewrite Forall_forall in Hplain. exact (repr_str_plain s (Hplain s Hin)). }
  rewrite E. reflexivity.
Qed.

End Handler.

(** * The scenarios, run with the Latin-1 table *)

Example repr_scenario_1 :
  py_str latin1_isprintable
    (PList [PStr (lit "Helo wrld"); PStr (lit "Hello world"); PStr (lit "Hello wrold")])
  = lit "['Helo wrld', 'Hello world', 'Hello wrold']".
Proof. reflexivity. Qed.

Example repr_mixed :
  py_str latin1_isprintable
    (PList [PInt (-12); PNone; PBool true; PStr (lit "it's"); PInt 0;
            PDict [(lit "a", PList [])]; PStr [9; 233; 128; 160; 173]%N])
  = lit "[-12, None, True, " ++ [34; 105; 116; 39; 115; 34]%N
    ++ lit ", 0, {'a': []}, '\t" ++ [233%N] ++ lit "\x80\xa0\xad']".
Proof. reflexivity. Qed.

Example scenario_1 :
  exec (replying (lit "Hello world"))
    (process_ocr latin1_isprintable
       (texts_body [PStr (lit "Helo wrld"); PStr (lit "Hello world");
                    PStr (lit "Hello wrold")]))
  = (Returned {| status := 200;
                 body := PDict [ (lit "processed_text", PStr (lit "Hello world")) ] |},
     [ {| model := lit "llava";
          messages :=
            PList
              [ PDict [ (lit "role", PStr (lit "system"));
                        (lit "content", PStr SYSTEM_PROMPT) ];
                PDict [ (lit "role", PStr (lit "user"));
                        (lit "content",
                         PStr (lit "The list of OCR extracted text is ['Helo wrld', 'Hello world', 'Hello wrold']")) ] ] |} ]).
Proof. reflexivity. Qed.

Example scenario_2 :
  exec (replying (lit "unused")) (process_ocr latin1_isprintable (PDict []))
  = (Returned {| status := 400;
                 body := PDict [ (lit "error", PStr INVALID_INPUT) ] |}, []).
Proof. reflexivity. Qed.

Example scenario_3 :
  exec (replying (lit "unused"))
    (process_ocr latin1_isprintable
       (PDict [ (lit "texts", PStr (lit "not a list")) ]))
  = (Returned {| status := 400;
                 body := PDict [ (lit "error", PStr INVALID_INPUT) ] |}, []).
Proof. reflexivity. Qed.

Example scenario_4 :
  fst (exec (failing timeout)
         (process_ocr latin1_isprintable
            (texts_body [PStr (lit "A"); PStr (lit "B")])))
  = Returned {| status := 500;
                body := PDict [ (lit "error",
                                 PStr (lit "An error occurred while processing: timed out")) ] |}.
Proof. reflexivity. Qed.

(** A reply without a [message] key: the [KeyError] is answered with 500. *)
Example reply_without_message :
  fst (exec (fun _ => Returns (PDict []))
         (process_ocr latin1_isprintable (texts_body [PStr (lit "A")])))
  = Returned {| status := 500;
                body := PDict [ (lit "error",
                                 PStr (lit "An error occurred while processing: 'message'")) ] |}.
Proof. reflexivity. Qed.

(** Bodies that are not objects: an array or a string without ['texts']
    in it is rejected with 400; one with ['texts'] in it raises at
    [data['texts']]; a number raises at [in]. *)
Example array_body_rejected :
  process_ocr latin1_isprintable (PList [PStr (lit "a"); PInt 1])
  = Ret (validation_failure).
Proof. reflexivity. Qed.

Example array_body_with_texts_raises :
  process_ocr latin1_isprintable (PList [PStr (lit "texts")])
  = Raise (TypeError (lit "list indices must be integers or slices, not str")).
Proof. reflexivity. Qed.

Example string_body_with_texts_raises :
  process_ocr latin1_isprintable (PStr (lit "my texts"))
  = Raise (TypeError (lit "string indices must be integers, not 'str'")).
Proof. reflexivity. Qed.

Example number_body_raises :
  process_ocr latin1_isprintable (PInt 7)
  = Raise (TypeError (lit "argument of type 'int' is not iterable")).
Proof. reflexivity. Qed.

(** * The claims at concrete requests *)

Lemma invalid_texts_gives_400_witness :
  (dict_get [ (lit "texts", PStr (lit "not a list")) ] (lit "texts") = None
   \/ (exists v, dict_get [ (lit "texts", PStr (lit "not a list")) ] (lit "texts")
                 = Some v /\ isinstance_list v = false))
  /\ process_ocr latin1_isprintable (PDict [ (lit "texts", PStr (lit "not a list")) ])
     = Ret {| status := 400;
              body := PDict [ (lit "error",
                               PStr (lit "Invalid input. Please provide a list of OCR-extracted texts.")) ] |}.
Proof.
  assert (H : dict_get [ (lit "texts", PStr (lit "not a list")) ] (lit "texts") = None
              \/ (exists v, dict_get [ (lit "texts", PStr (lit "not a list")) ] (lit "texts")
                            = Some v /\ isinstance_list v = false)).
  { right. exists (PStr (lit "not a list")). split; reflexivity. }
  split; [exact H|].
  exact (invalid_texts_gives_400 latin1_isprintable _ H).
Defined.

Lemma reply_gives_200_witness :
  fst (exec (replying (lit "Hello world"))
         (process_ocr latin1_isprintable
            (PDict [ (lit "texts", PList [PStr (lit "Helo wrld"); PStr (lit "Hello world")]) ])))
  = Returned {| status := 200;
                body := PDict [ (lit "processed_text", PStr (lit "Hello world")) ] |}.
Proof.
  apply (reply_gives_200 latin1_isprintable
           [ (lit "texts", PList [PStr (lit "Helo wrld"); PStr (lit "Hello world")]) ]
           [PStr (lit "Helo wrld"); PStr (lit "Hello world")]
           (replying (lit "Hello world"))
           [ (lit "model", PStr (lit "llava"));
             (lit "message",
              PDict [ (lit "role", PStr (lit "assistant"));
                      (lit "content", PStr (lit "Hello world")) ]) ]
           [ (lit "role", PStr (lit "assistant"));
             (lit "content", PStr (lit "Hello world")) ]
           (PStr (lit "Hello world")));
    reflexivity.
Defined.

Lemma inference_error_gives_500_witness :
  exec (failing timeout)
    (process_ocr latin1_isprintable
       (PDict [ (lit "texts", PList [PStr (lit "A"); PStr (lit "B")]) ]))
  = (Returned {| status := 500;
                 body := PDict [ (lit "error",
                                  PStr (lit "An error occurred while processing: "
                                        ++ lit "timed out")) ] |},
     [chat_request latin1_isprintable (PList [PStr (lit "A"); PStr (lit "B")])]).
Proof.
  apply (inference_error_gives_500 latin1_isprintable
           [ (lit "texts", PList [PStr (lit "A"); PStr (lit "B")]) ]
           [PStr (lit "A"); PStr (lit "B")] (failing timeout) timeout).
  - reflexivity.
  - left. reflexivity.
Defined.

Lemma outbound_request_shape_witness :
  invalid_input latin1_isprintable (texts_body [PStr (lit "A"); PInt 2]) = Ret false
  /\ exists kvs l,
       texts_body [PStr (lit "A"); PInt 2] = PDict kvs
       /\ dict_get kvs (lit "texts") = Some (PList l)
       /\ forall client,
            snd (exec client (process_ocr latin1_isprintable
                                (texts_body [PStr (lit "A"); PInt 2])))
            = [ {| model := lit "llava";
                   messages :=
                     PList
                       [ PDict [ (lit "role", PStr (lit "system"));
                                 (lit "content", PStr SYSTEM_PROMPT) ];
                         PDict [ (lit "role", PStr (lit "user"));
                                 (lit "content",
                                  PStr (lit "The list of OCR extracted text is "
                                        ++ py_str latin1_isprintable (PList l))) ] ] |} ].
Proof.
  split; [reflexivity|].
  apply (outbound_request_shape latin1_isprintable
           (texts_body [PStr (lit "A"); PInt 2])).
  reflexivity.
Defined.

Lemma rejected_request_makes_no_call_witness :
  exec (replying (lit "unused")) (process_ocr latin1_isprintable (PDict []))
  = (Returned {| status := 400;
                 body := PDict [ (lit "error",
                                  PStr (lit "Invalid input. Please provide a list of OCR-extracted texts.")) ] |},
     []).
Proof.
  apply (rejected_request_makes_no_call latin1_isprintable []
           (replying (lit "unused"))).
  left. reflexivity.
Defined.

Lemma list_texts_pass_validation_witness :
  (invalid_input latin1_isprintable (PDict [ (lit "texts", PList []) ]) = Ret false
   /\ forall client,
        snd (exec client (process_ocr latin1_isprintable
                            (PDict [ (lit "texts", PList []) ])))
        = [chat_request latin1_isprintable (PList [])]
        /\ exists r,
             fst (exec client (process_ocr latin1_isprintable
                                 (PDict [ (lit "texts", PList []) ])))
             = Returned r /\ status r <> 400%Z)
  /\ (invalid_input latin1_isprintable
        (PDict [ (lit "texts", PList [PInt 1; PNone; PList []]) ]) = Ret false
      /\ forall client,
           snd (exec client (process_ocr latin1_isprintable
                               (PDict [ (lit "texts", PList [PInt 1; PNone; PList []]) ])))
           = [chat_request latin1_isprintable (PList [PInt 1; PNone; PList []])]
           /\ exists r,
                fst (exec client (process_ocr latin1_isprintable
                                    (PDict [ (lit "texts", PList [PInt 1; PNone; PList []]) ])))
                = Returned r /\ status r <> 400%Z).
Proof.
  split.
  - apply (list_texts_pass_validation latin1_isprintable
             [ (lit "texts", PList []) ] []).
    reflexivity.
  - apply (list_texts_pass_validation latin1_isprintable
             [ (lit "texts", PList [PInt 1; PNone; PList []]) ]
             [PInt 1; PNone; PList []]).
    reflexivity.
Defined.

Lemma other_fields_do_not_interfere_witness :
  process_ocr latin1_isprintable
    (PDict [ (lit "texts", PList [PStr (lit "A")]); (lit "lang", PStr (lit "en")) ])
  = process_ocr latin1_isprintable
      (PDict [ (lit "debug", PBool true); (lit "texts", PList [PStr (lit "A")]) ])
  /\ forall c1 c2,
       (forall req,
           In req (snd (exec c1
                          (process_ocr latin1_isprintable
                             (PDict [ (lit "texts", PList [PStr (lit "A")]);
                                      (lit "lang", PStr (lit "en")) ])))) ->
           c1 req = c2 req) ->
       exec c1 (process_ocr latin1_isprintable
                  (PDict [ (lit "texts", PList [PStr (lit "A")]);
                           (lit "lang", PStr (lit "en")) ]))
       = exec c2 (process_ocr latin1_isprintable
                    (PDict [ (lit "debug", PBool true);
                             (lit "texts", PList [PStr (lit "A")]) ])).
Proof.
  apply (other_fields_do_not_interfere latin1_isprintable
           [ (lit "texts", PList [PStr (lit "A")]); (lit "lang", PStr (lit "en")) ]
           [ (lit "debug", PBool true); (lit "texts", PList [PStr (lit "A")]) ]).
  reflexivity.
Defined.

(** * The further properties at concrete requests *)

Lemma non_object_body_without_texts_rejected_witness :
  exec (replying (lit "unused"))
    (process_ocr latin1_isprintable (PList [PStr (lit "a"); PInt 1]))
  = (Returned {| status := 400;
                 body := PDict [ (lit "error",
                                  PStr (lit "Invalid input. Please provide a list of OCR-extracted texts.")) ] |},
     [])
  /\ exec (replying (lit "unused"))
       (process_ocr latin1_isprintable (PStr (lit "some text")))
     = (Returned {| status := 400;
                    body := PDict [ (lit "error",
                                     PStr (lit "Invalid input. Please provide a list of OCR-extracted texts.")) ] |},
        []).
Proof.
  split.
  - apply (non_object_body_without_texts_rejected latin1_isprintable
             (PList [PStr (lit "a"); PInt 1]) (replying (lit "unused"))).
    left. exists [PStr (lit "a"); PInt 1]. split; [reflexivity|].
    intros [H | [H | []]]; discriminate H.
  - apply (non_object_body_without_texts_rejected latin1_isprintable
             (PStr (lit "some text")) (replying (lit "unused"))).
    right. exists (lit "some text"). split; [reflexivity|].
    rewrite <- str_contains_substring. vm_compute. discriminate.
Defined.

Lemma non_object_body_with_texts_raises_witness :
  (exists e,
      exec (replying (lit "unused"))
        (process_ocr latin1_isprintable (PList [PInt 1; PStr (lit "texts")]))
      = (Propagated e, [])
      /\ exc_class e = "TypeError"%string)
  /\ (exists e,
         exec (replying (lit "unused"))
           (process_ocr latin1_isprintable (PStr (lit "my texts here")))
         = (Propagated e, [])
         /\ exc_class e = "TypeError"%string).
Proof.
  split.
  - apply (non_object_body_with_texts_raises latin1_isprintable
             (PList [PInt 1; PStr (lit "texts")]) (replying (lit "unused"))).
    left. exists [PInt 1; PStr (lit "texts")]. split; [reflexivity|].
    right. left. reflexivity.
  - apply (non_object_body_with_texts_raises latin1_isprintable
             (PStr (lit "my texts here")) (replying (lit "unused"))).
    right. exists (lit "my texts here"), (lit "my "), (lit " here").
    split; reflexivity.
Defined.

Lemma scalar_body_raises_witness :
  exists e,
    exec (replying (lit "unused")) (process_ocr latin1_isprintable (PInt 7))
    = (Propagated e, [])
    /\ exc_class e = "TypeError"%string.
Proof.
  apply (scalar_body_raises latin1_isprintable (PInt 7) (replying (lit "unused"))).
  exact I.
Defined.

Lemma only_validation_type_errors_escape_witness :
  exc_class (TypeError (lit "list indices must be integers or slices, not str"))
  = "TypeError"%string
  /\ (forall kvs, PList [PStr (lit "texts")] <> PDict kvs)
  /\ snd (exec (replying (lit "unused"))
            (process_ocr latin1_isprintable (PList [PStr (lit "texts")]))) = [].
Proof.
  apply (only_validation_type_errors_escape latin1_isprintable
           (PList [PStr (lit "texts")]) (replying (lit "unused"))
           (TypeError (lit "list indices must be integers or slices, not str"))).
  reflexivity.
Defined.

Lemma reply_without_message_key_witness :
  exec (fun _ => Returns (PDict [ (lit "done", PBool true) ]))
    (process_ocr latin1_isprintable (texts_body [PStr (lit "A")]))
  = (Returned {| status := 500;
                 body := PDict [ (lit "error",
                                  PStr (lit "An error occurred while processing: 'message'")) ] |},
     [chat_request latin1_isprintable (PList [PStr (lit "A")])]).
Proof.
  apply (reply_without_message_key latin1_isprintable
           [ (lit "texts", PList [PStr (lit "A")]) ] [PStr (lit "A")]
           (fun _ => Returns (PDict [ (lit "done", PBool true) ]))
           [ (lit "done", PBool true) ]);
    reflexivity.
Defined.

Lemma reply_without_content_key_witness :
  exec (fun _ => Returns (PDict [ (lit "message",
                                   PDict [ (lit "role", PStr (lit "assistant")) ]) ]))
    (process_ocr latin1_isprintable (texts_body [PStr (lit "A")]))
  = (Returned {| status := 500;
                 body := PDict [ (lit "error",
                                  PStr (lit "An error occurred while processing: 'content'")) ] |},
     [chat_request latin1_isprintable (PList [PStr (lit "A")])]).
Proof.
  apply (reply_without_content_key latin1_isprintable
           [ (lit "texts", PList [PStr (lit "A")]) ] [PStr (lit "A")]
           (fun _ => Returns (PDict [ (lit "message",
                                       PDict [ (lit "role", PStr (lit "assistant")) ]) ]))
           [ (lit "message", PDict [ (lit "role", PStr (lit "assistant")) ]) ]
           [ (lit "role", PStr (lit "assistant")) ]);
    reflexivity.
Defined.

Lemma response_depends_on_outcome_only_witness :
  fst (exec (replying (lit "Hello"))
         (process_ocr latin1_isprintable (texts_body [PStr (lit "A")])))
  = fst (exec (replying (lit "Hello"))
           (process_ocr latin1_isprintable
              (PDict [ (lit "n", PInt 3); (lit "texts", PList [PInt 1; PNone]) ]))).
Proof.
  apply (response_depends_on_outcome_only latin1_isprintable
           [ (lit "texts", PList [PStr (lit "A")]) ] [PStr (lit "A")]
           [ (lit "n", PInt 3); (lit "texts", PList [PInt 1; PNone]) ]
           [PInt 1; PNone]
           (replying (lit "Hello")) (replying (lit "Hello")));
    reflexivity.
Defined.

Lemma reply_other_fields_ignored_witness :
  exec (replying (lit "Hello"))
    (process_ocr latin1_isprintable (texts_body [PStr (lit "A")]))
  = exec (fun _ => Returns (PDict [ (lit "message",
                                     PDict [ (lit "role", PStr (lit "assistant"));
                                             (lit "content", PStr (lit "Hello")) ]);
                                    (lit "done", PBool true) ]))
      (process_ocr latin1_isprintable (texts_body [PStr (lit "A")])).
Proof.
  apply (reply_other_fields_ignored latin1_isprintable
           [ (lit "texts", PList [PStr (lit "A")]) ] [PStr (lit "A")]
           (replying (lit "Hello"))
           (fun _ => Returns (PDict [ (lit "message",
                                       PDict [ (lit "role", PStr (lit "assistant"));
                                               (lit "content", PStr (lit "Hello")) ]);
                                      (lit "done", PBool true) ]))
           [ (lit "model", PStr (lit "llava"));
             (lit "message",
              PDict [ (lit "role", PStr (lit "assistant"));
                      (lit "content", PStr (lit "Hello")) ]) ]
           [ (lit "message",
              PDict [ (lit "role", PStr (lit "assistant"));
                      (lit "content", PStr (lit "Hello")) ]);
             (lit "done", PBool true) ]);
    reflexivity.
Defined.

Lemma plain_texts_shown_verbatim_witness :
  snd (exec (replying (lit "Hello world"))
         (process_ocr latin1_isprintable
            (PDict [ (lit "texts",
                      PList (map PStr [lit "Helo wrld"; lit "Hello world"])) ])))
  = [ {| model := lit "llava";
         messages :=
           PList
             [ PDict [ (lit "role", PStr (lit "system"));
                       (lit "content", PStr SYSTEM_PROMPT) ];
               PDict [ (lit "role", PStr (lit "user"));
                       (lit "content",
                        PStr (lit "The list of OCR extracted text is "
                              ++ lit "["
                              ++ join (lit ", ")
                                   (map (fun s => lit "'" ++ s ++ lit "'")
                                      [lit "Helo wrld"; lit "Hello world"])
                              ++ lit "]")) ] ] |} ].
Proof.
  apply (plain_texts_shown_verbatim latin1_isprintable
           [ (lit "texts", PList (map PStr [lit "Helo wrld"; lit "Hello world"])) ]
           [lit "Helo wrld"; lit "Hello world"]
           (replying (lit "Hello world"))).
  - reflexivity.
  - repeat (apply Forall_cons || apply Forall_nil);
      vm_compute; repeat split; discriminate.
Defined.
